(** * hcloud: the SSH key client ([hcloud/ssh_key.go])

    A shallow embedding of [SSHKeyClient] and of the helpers it calls,
    followed by the properties of its methods.

    Conventions.
    - Go's [int] is [Z]; the only arithmetic on it is the page counter of
      the pagination loop, whose 64-bit wrap-around is written out.
    - A Go slice is [option (list A)]: [None] is the nil slice, [Some nil] an
      empty slice that is not nil.
    - A pointer result that may be nil ([*SSHKey], [*Response]) and Go's
      [error] are options: [None] is nil.
    - The methods run in a state monad over the trace of calls they make on
      the underlying [*Client]; the provider answers as a function of that
      trace, so replies may depend on everything the client did before. *)

From Stdlib Require Import ZArith List String Ascii Bool Lia.
From Stdlib Require Import DecimalString DecimalPos DecimalZ.
Import ListNotations.
Open Scope string_scope.
Open Scope list_scope.
Open Scope Z_scope.

(** ** Go values *)

Definition int := Z.

(** [x + 1] on a 64-bit two's complement [int]. *)
Definition int_succ (x : int) : int :=
  (x + 1 + 2 ^ 63) mod 2 ^ 64 - 2 ^ 63.

(** [strconv.Itoa], which is also what the verb [%d] prints. *)
Definition Itoa (x : int) : string :=
  NilZero.string_of_int (Z.to_int x).

Definition slice (A : Type) : Type := option (list A).

Definition elems {A} (s : slice A) : list A :=
  match s with
  | None => []
  | Some l => l
  end.

(** [make([]T, 0, n)]: empty, not nil. *)
Definition make {A} : slice A := Some [].

(** [append(s, xs...)]: appending nothing to the nil slice leaves it nil. *)
Definition append {A} (s : slice A) (xs : list A) : slice A :=
  match s, xs with
  | None, [] => None
  | None, _ :: _ => Some xs
  | Some l, _ => Some (l ++ xs)
  end.

(** Go's [error] values that appear here. *)
Inductive error : Type :=
| errors_New (msg : string)
| APIError (code message : string)
| TransportError (msg : string).

Definition ErrorCodeNotFound : string := "not_found".

(** ** Wire schema and domain types *)

Module schema.
(** [schema.SSHKey], with the fields the client reads. *)
Record SSHKey : Type := mkSSHKey {
  ID : int;
  Name : string;
  Fingerprint : string;
  PublicKey : string
}.

(** [schema.MetaPagination], as the tests build it. *)
Record MetaPagination : Type := mkMetaPagination {
  Page : int;
  PerPage : int;
  LastPage : int;
  TotalEntries : int
}.
End schema.

Record SSHKey : Type := mkSSHKey {
  ID : int;
  Name : string;
  Fingerprint : string;
  PublicKey : string
}.

Definition SSHKeyFromSchema (s : schema.SSHKey) : SSHKey :=
  {| ID := schema.ID s;
     Name := schema.Name s;
     Fingerprint := schema.Fingerprint s;
     PublicKey := schema.PublicKey s |}.

Record ListOpts : Type := mkListOpts {
  Page : int;
  PerPage : int
}.

(** [SSHKeyListOpts] embeds [ListOpts] and adds nothing. *)
Record SSHKeyListOpts : Type := mkSSHKeyListOpts {
  listOpts : ListOpts
}.

Record SSHKeyCreateOpts : Type := mkSSHKeyCreateOpts {
  co_Name : string;
  co_PublicKey : string
}.

Definition Validate (o : SSHKeyCreateOpts) : option error :=
  if String.eqb (co_Name o) "" then Some (errors_New "missing name")
  else if String.eqb (co_PublicKey o) "" then
    Some (errors_New "missing public key")
  else None.

(** [Response]: the HTTP response with the pagination meta data parsed from
    its body ([resp.Meta.Pagination] is a pointer, nil when absent). *)
Record Response : Type := mkResponse {
  StatusCode : int;
  Pagination : option schema.MetaPagination
}.

(** ** The underlying client

    [Client.NewRequest], [Client.Do] and [Client.all] live in [client.go].
    The SSH key client only calls them, so the first two are the fields of
    an interface here and every statement about the methods below holds for
    whatever they do. *)

(** [*http.Request], as far as the client builds it. *)
Record Request : Type := mkRequest {
  Method : string;
  URL : string;
  Body : option string;
  Header : list (string * string)
}.

(** The value [v] that [Do] decodes the response body into: nil, or a
    pointer to one of the two anonymous structs of the methods. *)
Inductive Target : Type :=
| NoTarget
| IntoSSHKey
| IntoSSHKeys.

(** The content of [*v] after [Do]. *)
Definition Decoded (t : Target) : Type :=
  match t with
  | NoTarget => unit
  | IntoSSHKey => schema.SSHKey
  | IntoSSHKeys => slice schema.SSHKey
  end.

(** What a method did on its client, in order. *)
Inductive Event : Type :=
| NewRequestCall (method path : string) (body : option string)
| DoCall (req : Request) (v : Target).

Definition Trace : Type := list Event.

Record Client : Type := mkClient {
  NewRequest : string -> string -> option string -> Request + error;
  Do : Trace -> Request -> forall v : Target,
       option Response * option error * Decoded v
}.

(** State monad over the trace. *)
Definition M (A : Type) : Type := Trace -> A * Trace.

Definition ret {A} (a : A) : M A := fun tr => (a, tr).

Definition bind {A B} (m : M A) (k : A -> M B) : M B :=
  fun tr => let (a, tr') := m tr in k a tr'.

Notation "x <- m ;; k" := (bind m (fun x => k))
  (at level 61, m at next level, right associativity).
Notation "' p <- m ;; k" := (bind m (fun x => match x with p => k end))
  (at level 61, p pattern, m at next level, right associativity).

Definition emit (ev : Event) : M unit := fun tr => (tt, tr ++ [ev]).

Definition callNewRequest (c : Client) (method path : string)
    (body : option string) : M (Request + error) :=
  _ <- emit (NewRequestCall method path body) ;;
  ret (NewRequest c method path body).

Definition callDo (c : Client) (req : Request) (v : Target)
    : M (option Response * option error * Decoded v) :=
  fun tr => (Do c tr req v, tr ++ [DoCall req v]).

(** ** Query strings ([net/url]) *)

Module url.
(** [url.Values] maps a key to the list of its values. *)
Definition Values : Type := list (string * list string).

Fixpoint Add (vals : Values) (key value : string) : Values :=
  match vals with
  | [] => [(key, [value])]
  | (k, vs) :: rest =>
      if String.eqb k key then (k, vs ++ [value]) :: rest
      else (k, vs) :: Add rest key value
  end.

(** Letters, digits and [-_.~] are the bytes [QueryEscape] keeps. *)
Definition unreserved (c : ascii) : bool :=
  let n := Z.of_N (N_of_ascii c) in
  ((48 <=? n) && (n <=? 57)) || ((65 <=? n) && (n <=? 90)) ||
  ((97 <=? n) && (n <=? 122)) ||
  (n =? 45) || (n =? 95) || (n =? 46) || (n =? 126).

Definition upperhex (n : N) : ascii :=
  if (n <? 10)%N then ascii_of_N (48 + n) else ascii_of_N (55 + n).

Fixpoint QueryEscape (s : string) : string :=
  match s with
  | EmptyString => EmptyString
  | String c rest =>
      if unreserved c then String c (QueryEscape rest)
      else if Ascii.eqb c " " then String "+" (QueryEscape rest)
      else
        let n := N_of_ascii c in
        String "%" (String (upperhex (n / 16)) (String (upperhex (n mod 16))
          (QueryEscape rest)))
  end.

(** Keys in ascending order, as [sort.Strings] leaves them. *)
Fixpoint insertKey (e : string * list string) (vals : Values) : Values :=
  match vals with
  | [] => [e]
  | e' :: rest =>
      if String.leb (fst e) (fst e') then e :: vals
      else e' :: insertKey e rest
  end.

Definition sortKeys (vals : Values) : Values :=
  fold_right insertKey [] vals.

Definition pairs (vals : Values) : list string :=
  flat_map (fun e =>
    map (fun v => (QueryEscape (fst e) ++ "=" ++ QueryEscape v)%string)
        (snd e)) vals.

Definition Encode (vals : Values) : string :=
  String.concat "&" (pairs (sortKeys vals)).
End url.

(** Modelled from the spec: [valuesForListOpts] is declared outside
    [ssh_key.go]. List options are "translated to query-string parameters",
    "pagination via [page]/[per_page] query parameters", and the listing
    test reads back [page = "2"] and [per_page = "50"]: the two numbers in
    decimal under these two keys. *)
Definition valuesForListOpts (opts : ListOpts) : url.Values :=
  let vals := [] in
  let vals := url.Add vals "page" (Itoa (Page opts)) in
  let vals := url.Add vals "per_page" (Itoa (PerPage opts)) in
  vals.

(** ** SSHKeyClient *)

Definition Get (c : Client) (id : int)
    : M (option SSHKey * option Response * option error) :=
  r <- callNewRequest c "GET" ("/ssh_keys/" ++ Itoa id)%string None ;;
  match r with
  | inr err => ret (None, None, Some err)
  | inl req =>
      '(resp, err, body) <- callDo c req IntoSSHKey ;;
      match err with
      | Some e => ret (None, None, Some e)
      | None =>
          let sshKey := SSHKeyFromSchema body in
          ret (Some sshKey, resp, None)
      end
  end.

Definition listPath (opts : SSHKeyListOpts) : string :=
  ("/ssh_keys?" ++ url.Encode (valuesForListOpts (listOpts opts)))%string.

Definition List (c : Client) (opts : SSHKeyListOpts)
    : M (slice SSHKey * option Response * option error) :=
  let path := listPath opts in
  r <- callNewRequest c "GET" path None ;;
  match r with
  | inr err => ret (None, None, Some err)
  | inl req =>
      '(resp, err, body) <- callDo c req IntoSSHKeys ;;
      match err with
      | Some e => ret (None, None, Some e)
      | None =>
          let sshKeys :=
            fold_left (fun sshKeys s =>
                         let sshKey := SSHKeyFromSchema s in
                         append sshKeys [sshKey])
                      (elems body) make in
          ret (sshKeys, resp, None)
      end
  end.

(** A loop that ran to its [return], or one cut off by the fuel. *)
Inductive Outcome (A : Type) : Type :=
| Returned (a : A)
| OutOfFuel.
Arguments Returned {A} a.
Arguments OutOfFuel {A}.

(** Whether the aggregation stops after this response: no pagination meta
    data, or the page it reports is the last one. *)
Definition lastPageReached (resp : option Response) : bool :=
  match resp with
  | None => true
  | Some r =>
      match Pagination r with
      | None => true
      | Some p => schema.Page p =? schema.LastPage p
      end
  end.

(** Modelled from the spec: [Client.all] is declared outside [ssh_key.go].
    "Given a page-fetch function [(page) -> (Response, error)], repeatedly
    call with page = 1, 2, 3, ... until the response's pagination metadata
    indicates [page == lastPage] or no pagination metadata is present.
    Stops on first error"; the error propagates.  [L] holds the variables
    the closure [f] captured; [fuel] bounds the number of iterations of the
    [for] loop. *)
Fixpoint all_from {L} (fuel : nat)
    (f : int -> L -> M (option Response * option error * L))
    (page : int) (env : L)
    : M (Outcome (option Response * option error) * L) :=
  match fuel with
  | O => ret (OutOfFuel, env)
  | S fuel' =>
      '(resp, err, env') <- f page env ;;
      match err with
      | Some e => ret (Returned (None, Some e), env')
      | None =>
          if lastPageReached resp then ret (Returned (resp, None), env')
          else all_from fuel' f (int_succ page) env'
      end
  end.

Definition all {L} (fuel : nat)
    (f : int -> L -> M (option Response * option error * L)) (env : L)
    : M (Outcome (option Response * option error) * L) :=
  all_from fuel f 1 env.

(** The variables of [All] that its closure captures and assigns. *)
Record AllVars : Type := mkAllVars {
  allSSHKeys : slice SSHKey;
  opts : SSHKeyListOpts
}.

(** The function literal that [All] hands to [Client.all]. *)
Definition fetchPage (c : Client) (page : int) (vars : AllVars)
    : M (option Response * option error * AllVars) :=
  let opts' :=
    mkSSHKeyListOpts
      {| Page := page; PerPage := PerPage (listOpts (opts vars)) |} in
  '(sshKeys, resp, err) <- List c opts' ;;
  match err with
  | Some e =>
      ret (resp, Some e,
           {| allSSHKeys := allSSHKeys vars; opts := opts' |})
  | None =>
      ret (resp, None,
           {| allSSHKeys := append (allSSHKeys vars) (elems sshKeys);
              opts := opts' |})
  end.

(** The captured variables as [All] initialises them: an empty slice that
    is not nil, and zero options with [PerPage] set to 50. *)
Definition vars0 : AllVars :=
  {| allSSHKeys := Some [];
     opts := mkSSHKeyListOpts {| Page := 0; PerPage := 50 |} |}.

Definition All (fuel : nat) (c : Client)
    : M (Outcome (slice SSHKey * option error)) :=
  '(r, vars) <- all fuel (fetchPage c) vars0 ;;
  match r with
  | OutOfFuel => ret OutOfFuel
  | Returned (_, Some err) => ret (Returned (None, Some err))
  | Returned (_, None) => ret (Returned (allSSHKeys vars, None))
  end.

Section Create.
(** [json.Marshal] on the request struct of [Create], whose fields are
    [name] and [public_key]. *)
Variable json_Marshal : string -> string -> string + error.

Definition Create (c : Client) (opts : SSHKeyCreateOpts)
    : M (option SSHKey * option Response * option error) :=
  match Validate opts with
  | Some err => ret (None, None, Some err)
  | None =>
      match json_Marshal (co_Name opts) (co_PublicKey opts) with
      | inr err => ret (None, None, Some err)
      | inl reqBodyData =>
          r <- callNewRequest c "POST" "/ssh_keys" (Some reqBodyData) ;;
          match r with
          | inr err => ret (None, None, Some err)
          | inl req =>
              '(resp, err, respBody) <- callDo c req IntoSSHKey ;;
              match err with
              | Some e => ret (None, resp, Some e)
              | None =>
                  let sshKey := SSHKeyFromSchema respBody in
                  ret (Some sshKey, resp, None)
              end
          end
      end
  end.
End Create.

Definition Delete (c : Client) (id : int)
    : M (option Response * option error) :=
  r <- callNewRequest c "DELETE" ("/ssh_keys/" ++ Itoa id)%string None ;;
  match r with
  | inr err => ret (None, Some err)
  | inl req =>
      '(resp, err, _) <- callDo c req NoTarget ;;
      ret (resp, err)
  end.

(** ** The transport *)

(** A JSON response body, as far as the client reads it: the error object,
    the pagination meta data, and the [ssh_key] and [ssh_keys] members
    (zero when the document has none). *)
Record Document : Type := mkDocument {
  doc_error : option (string * string);
  doc_pagination : option schema.MetaPagination;
  doc_ssh_key : schema.SSHKey;
  doc_ssh_keys : slice schema.SSHKey
}.

(** What comes back for a request: nothing (connection failure, time-out),
    or a status with a body, [None] for a body that is not JSON. *)
Inductive Reply : Type :=
| NoReply (msg : string)
| HTTPReply (status : int) (body : option Document).

(** The provider answers a request knowing what the client did so far. *)
Definition Provider : Type := Trace -> Request -> Reply.

Definition is2xx (status : int) : bool :=
  (200 <=? status) && (status <=? 299).

Definition zero (v : Target) : Decoded v :=
  match v with
  | NoTarget => tt
  | IntoSSHKey => schema.mkSSHKey 0 "" "" ""
  | IntoSSHKeys => None
  end.

Definition decode (v : Target) (body : option Document)
    : option (Decoded v) :=
  match v with
  | NoTarget => Some tt
  | IntoSSHKey => option_map doc_ssh_key body
  | IntoSSHKeys => option_map doc_ssh_keys body
  end.

Definition errorFromResponse (body : option Document) : error :=
  match body with
  | Some {| doc_error := Some (code, message) |} => APIError code message
  | _ => APIError "" ""
  end.

(** Modelled from the spec: [Client.Do] is declared outside [ssh_key.go].
    The transport "deserializes response bodies into typed schema structs,
    maps non-2xx responses to structured errors"; a [Response] "wraps the
    raw HTTP response plus parsed pagination metadata"; errors are network
    errors (no response), API errors ("non-2xx HTTP with a structured error
    body carrying a provider-defined error code and message", returned with
    the response, which is what lets a caller tell not-found apart) and
    failures to decode. *)
Definition DoOver (provider : Provider) (tr : Trace) (req : Request)
    (v : Target) : option Response * option error * Decoded v :=
  match provider tr req with
  | NoReply msg => (None, Some (TransportError msg), zero v)
  | HTTPReply status body =>
      let resp :=
        {| StatusCode := status;
           Pagination := match body with
                         | Some d => doc_pagination d
                         | None => None
                         end |} in
      if is2xx status then
        match decode v body with
        | Some x => (Some resp, None, x)
        | None =>
            (Some resp, Some (TransportError "invalid response body"),
             zero v)
        end
      else (Some resp, Some (errorFromResponse body), zero v)
  end.

(** A client whose requests are built by [newReq] and answered by
    [provider]. *)
Definition clientOver
    (newReq : string -> string -> option string -> Request + error)
    (provider : Provider) : Client :=
  {| NewRequest := newReq; Do := DoOver provider |}.

(** ** A test environment

    The shape of [newTestEnv] in the tests: a client pointed at a local
    server whose handlers are chosen by the request. *)
Module TestEnv.
Definition endpoint : string := "http://127.0.0.1:8080".

Definition newReq (method path : string) (body : option string)
    : Request + error :=
  inl {| Method := method; URL := (endpoint ++ path)%string;
         Body := body; Header := [] |}.

Definition key (n : int) : schema.SSHKey :=
  schema.mkSSHKey n ("key" ++ Itoa n) "" "ssh-rsa AAAA".

(** Every request is answered with 404 and the error code
    [not_found]. *)
Definition notFound : Provider :=
  fun _ _ =>
    HTTPReply 404
      (Some {| doc_error := Some (ErrorCodeNotFound, "not found");
               doc_pagination := None;
               doc_ssh_key := zero IntoSSHKey;
               doc_ssh_keys := None |}).

(** Every request is answered with 200 and [{"ssh_keys": []}]. *)
Definition noKeys : Provider :=
  fun _ _ =>
    HTTPReply 200
      (Some {| doc_error := None; doc_pagination := None;
               doc_ssh_key := zero IntoSSHKey;
               doc_ssh_keys := Some [] |}).

(** Every request is answered with 204 and an empty body. *)
Definition noContent : Provider := fun _ _ => HTTPReply 204 None.

Definition page (n last : int) (keys : list schema.SSHKey) : Reply :=
  HTTPReply 200
    (Some {| doc_error := None;
             doc_pagination :=
               Some (schema.mkMetaPagination n 50 last 3);
             doc_ssh_key := zero IntoSSHKey;
             doc_ssh_keys := Some keys |}).

(** Three keys on two pages. *)
Definition twoPages : Provider :=
  fun _ req =>
    if String.eqb (URL req)
         (endpoint ++ "/ssh_keys?page=1&per_page=50")
    then page 1 2 [key 1; key 2]
    else if String.eqb (URL req)
              (endpoint ++ "/ssh_keys?page=2&per_page=50")
    then page 2 2 [key 3]
    else HTTPReply 404 None.

(** The first page is served, the connection drops on the second. *)
Definition dropsOnPage2 : Provider :=
  fun _ req =>
    if String.eqb (URL req)
         (endpoint ++ "/ssh_keys?page=1&per_page=50")
    then page 1 2 [key 1; key 2]
    else NoReply "connection reset".

(** [json.Marshal] of the create request, for names and keys that need
    no escaping. *)
Definition marshal (name publicKey : string) : string + error :=
  let q := String "034"%char "" in
  inl ("{" ++ q ++ "name" ++ q ++ ":" ++ q ++ name ++ q ++ "," ++
       q ++ "public_key" ++ q ++ ":" ++ q ++ publicKey ++ q ++ "}")%string.

(** Request construction fails, as for an endpoint that does not parse. *)
Definition badEndpoint (method path : string) (body : option string)
    : Request + error :=
  inr (errors_New "invalid URL").

(** Every request is answered with 200 and the key number 5. *)
Definition oneKey : Provider :=
  fun _ _ =>
    HTTPReply 200
      (Some {| doc_error := None; doc_pagination := None;
               doc_ssh_key := key 5; doc_ssh_keys := None |}).

(** Every request is refused with 422 and the error code
    [uniqueness_error]. *)
Definition taken : Provider :=
  fun _ _ =>
    HTTPReply 422
      (Some {| doc_error := Some ("uniqueness_error", "name taken");
               doc_pagination := None;
               doc_ssh_key := zero IntoSSHKey;
               doc_ssh_keys := None |}).
End TestEnv.

(** ** Vocabulary of the statements *)

(** What [List] returns for what [Do] returned. *)
Definition listResult
    (r : option Response * option error * slice schema.SSHKey)
    : slice SSHKey * option Response * option error :=
  match r with
  | (_, Some e, _) => (None, None, Some e)
  | (resp, None, body) =>
      (Some (map SSHKeyFromSchema (elems body)), resp, None)
  end.

(** The options of the fetch of page [p]. *)
Definition pageOpts (p : int) : SSHKeyListOpts :=
  mkSSHKeyListOpts {| Page := p; PerPage := 50 |}.

(** [ev] belongs to a listing with page size [perPage]: building the
    [GET] request of some page, or sending the request so built. *)
Definition fetchEvent (c : Client) (perPage : int) (ev : Event) : Prop :=
  exists page,
    let path :=
      listPath (mkSSHKeyListOpts {| Page := page; PerPage := perPage |}) in
    ev = NewRequestCall "GET" path None \/
    exists req,
      NewRequest c "GET" path None = inl req /\ ev = DoCall req IntoSSHKeys.

(** [Pages c p tr pages p' tr']: from trace [tr], listing the pages
    [p], [p+1], ... one after the other succeeds once per element of
    [pages], each response announcing that more pages follow; [pages] are
    the results, [p'] is the next page and [tr'] the trace reached. *)
Inductive Pages (c : Client)
    : int -> Trace -> list (list SSHKey) -> int -> Trace -> Prop :=
| Pages_done p tr : Pages c p tr [] p tr
| Pages_more p tr sshKeys resp tr1 rest p' tr' :
    List c (pageOpts p) tr = (sshKeys, resp, None, tr1) ->
    lastPageReached resp = false ->
    Pages c (int_succ p) tr1 rest p' tr' ->
    Pages c p tr (elems sshKeys :: rest) p' tr'.

(** What one fetch of page [p] by [All] does on the client: it builds the
    [GET] request of the page with [PerPage = 50] and, if that succeeds,
    sends it to be decoded into the [ssh_keys] struct. *)
Definition fetchEvents (c : Client) (p : int) : list Event :=
  let path := listPath (pageOpts p) in
  NewRequestCall "GET" path None ::
  match NewRequest c "GET" path None with
  | inl req => [DoCall req IntoSSHKeys]
  | inr _ => []
  end.

(** The [n] page numbers from [p] on, as the loop counts them. *)
Fixpoint pagesFrom (p : int) (n : nat) : list int :=
  match n with
  | O => []
  | S n' => p :: pagesFrom (int_succ p) n'
  end.

(** The invariant of the variables captured by the closure. *)
Definition varsOK (vars : AllVars) : Prop :=
  PerPage (listOpts (opts vars)) = 50 /\ allSSHKeys vars <> None.

(** * Properties *)

(** ** Page numbers *)

Lemma int_succ_in_range (x : int) :
  - 2 ^ 63 <= x < 2 ^ 63 - 1 -> int_succ x = x + 1.
Proof.
  intros H. unfold int_succ.
  rewrite Z.mod_small by lia. lia.
Qed.

(** The pages of a run are numbered upwards from the first one. *)
Lemma Pages_next_page (c : Client) (p : int) (tr : Trace)
    (pages : list (list SSHKey)) (p' : int) (tr' : Trace) :
  Pages c p tr pages p' tr' ->
  0 <= p -> p + Z.of_nat (List.length pages) < 2 ^ 63 ->
  p' = p + Z.of_nat (List.length pages).
Proof.
  induction 1 as [p tr | p tr sshKeys resp tr1 rest p' tr' _ _ _ IH];
    intros Hp Hn; cbn [List.length] in *.
  - lia.
  - rewrite int_succ_in_range in IH by lia. lia.
Qed.

(** ** Decimal numbers in paths and query strings *)

Lemma QueryEscape_digits (d : Decimal.uint) :
  url.QueryEscape (NilEmpty.string_of_uint d) = NilEmpty.string_of_uint d.
Proof.
  induction d; simpl; try reflexivity;
    unfold url.unreserved; simpl; now rewrite IHd.
Qed.

Lemma QueryEscape_minus (s : string) :
  url.QueryEscape (String "-" s) = String "-" (url.QueryEscape s).
Proof. reflexivity. Qed.

Lemma QueryEscape_Itoa (x : int) : url.QueryEscape (Itoa x) = Itoa x.
Proof.
  unfold Itoa, NilZero.string_of_int, NilZero.string_of_uint.
  destruct (Z.to_int x) as [d | d]; destruct d;
    rewrite ?QueryEscape_minus, ?QueryEscape_digits; reflexivity.
Qed.

Lemma listPath_eq (o : SSHKeyListOpts) :
  listPath o =
  ("/ssh_keys?page=" ++ Itoa (Page (listOpts o)) ++
   "&per_page=" ++ Itoa (PerPage (listOpts o)))%string.
Proof.
  unfold listPath, valuesForListOpts, url.Encode, url.sortKeys, url.pairs.
  cbn [url.Add String.eqb Ascii.eqb Bool.eqb fold_right url.insertKey fst snd].
  cbn [String.leb String.compare Ascii.compare].
  cbn -[Itoa url.QueryEscape String.append].
  rewrite !QueryEscape_Itoa.
  cbn -[Itoa].
  reflexivity.
Qed.

(** ** Schema conversion *)

(** C9: [SSHKeyFromSchema] copies [ID], [Name], [Fingerprint] and
    [PublicKey] field by field, for every schema value; hence two schema
    values with equal conversions agree on these four fields. *)
Theorem SSHKeyFromSchema_fieldwise (s s' : schema.SSHKey) :
  (ID (SSHKeyFromSchema s) = schema.ID s /\
   Name (SSHKeyFromSchema s) = schema.Name s /\
   Fingerprint (SSHKeyFromSchema s) = schema.Fingerprint s /\
   PublicKey (SSHKeyFromSchema s) = schema.PublicKey s) /\
  (SSHKeyFromSchema s = SSHKeyFromSchema s' ->
   schema.ID s = schema.ID s' /\
   schema.Name s = schema.Name s' /\
   schema.Fingerprint s = schema.Fingerprint s' /\
   schema.PublicKey s = schema.PublicKey s').
Proof.
  split.
  - repeat split.
  - unfold SSHKeyFromSchema. intros H. injection H as -> -> -> ->.
    repeat split.
Qed.

Lemma SSHKeyFromSchema_fieldwise_witness :
  schema.Name (TestEnv.key 1) = schema.Name (TestEnv.key 1) /\
  ID (SSHKeyFromSchema (TestEnv.key 1)) = 1.
Proof.
  destruct (SSHKeyFromSchema_fieldwise (TestEnv.key 1) (TestEnv.key 1))
    as [[Hid _] Hinj].
  split.
  - apply (Hinj eq_refl).
  - exact Hid.
Defined.

(** ** Validation of the create options *)

Lemma Validate_name_missing (o : SSHKeyCreateOpts) :
  co_Name o = "" -> Validate o = Some (errors_New "missing name").
Proof. unfold Validate. now intros ->. Qed.

Lemma Validate_key_missing (o : SSHKeyCreateOpts) :
  co_Name o <> "" -> co_PublicKey o = "" ->
  Validate o = Some (errors_New "missing public key").
Proof.
  unfold Validate. intros Hn ->.
  destruct (String.eqb_spec (co_Name o) ""); [contradiction | reflexivity].
Qed.

Lemma Validate_ok (o : SSHKeyCreateOpts) :
  Validate o = None <-> co_Name o <> "" /\ co_PublicKey o <> "".
Proof.
  unfold Validate.
  destruct (String.eqb_spec (co_Name o) "") as [Hn | Hn].
  - split; [discriminate | now intros [H _]].
  - destruct (String.eqb_spec (co_PublicKey o) "") as [Hk | Hk].
    + split; [discriminate | now intros [_ H]].
    + now split.
Qed.

(** C10: [Validate] returns nil exactly when [Name] and [PublicKey] are both
    non-empty; an empty [Name] gives "missing name" whatever [PublicKey]
    is, and a non-empty [Name] with an empty [PublicKey] gives
    "missing public key". *)
Theorem Validate_cases (o : SSHKeyCreateOpts) :
  (Validate o = None <-> co_Name o <> "" /\ co_PublicKey o <> "") /\
  (co_Name o = "" -> Validate o = Some (errors_New "missing name")) /\
  (co_Name o <> "" -> co_PublicKey o = "" ->
   Validate o = Some (errors_New "missing public key")).
Proof.
  split; [apply Validate_ok | split].
  - apply Validate_name_missing.
  - apply Validate_key_missing.
Qed.

Lemma Validate_cases_witness :
  Validate (mkSSHKeyCreateOpts "" "ssh-rsa AAAA") =
    Some (errors_New "missing name") /\
  Validate (mkSSHKeyCreateOpts "laptop" "") =
    Some (errors_New "missing public key") /\
  Validate (mkSSHKeyCreateOpts "laptop" "ssh-rsa AAAA") = None.
Proof.
  split; [| split].
  - apply (Validate_cases (mkSSHKeyCreateOpts "" "ssh-rsa AAAA")).
    reflexivity.
  - apply (Validate_cases (mkSSHKeyCreateOpts "laptop" "")).
    + discriminate.
    + reflexivity.
  - apply (Validate_cases (mkSSHKeyCreateOpts "laptop" "ssh-rsa AAAA")).
    split; discriminate.
Defined.

(** ** Create *)

(** C4: when [Name] or [PublicKey] is empty, [Create] returns the error of
    [Validate] and leaves the trace as it was: no request is built and
    none is sent. *)
Theorem Create_invalid_no_request
    (json_Marshal : string -> string -> string + error)
    (c : Client) (o : SSHKeyCreateOpts) (tr : Trace) :
  co_Name o = "" \/ co_PublicKey o = "" ->
  exists err,
    Validate o = Some err /\
    Create json_Marshal c o tr = (None, None, Some err, tr).
Proof.
  intros H.
  assert (Hv : Validate o <> None).
  { rewrite Validate_ok. intros [Hn Hk]. destruct H; contradiction. }
  unfold Create.
  destruct (Validate o) as [err |]; [| contradiction].
  exists err. split; reflexivity.
Qed.

Lemma Create_invalid_no_request_witness :
  exists err,
    Validate (mkSSHKeyCreateOpts "laptop" "") = Some err /\
    Create TestEnv.marshal (clientOver TestEnv.newReq TestEnv.noContent)
      (mkSSHKeyCreateOpts "laptop" "") [] = (None, None, Some err, []).
Proof.
  apply (Create_invalid_no_request TestEnv.marshal
           (clientOver TestEnv.newReq TestEnv.noContent)
           (mkSSHKeyCreateOpts "laptop" "") []).
  right. reflexivity.
Defined.

(** ** What one call does *)

Lemma append_to_non_nil {A} (l xs : list A) :
  append (Some l) xs = Some (l ++ xs).
Proof. reflexivity. Qed.

(** The conversion loop of [List] is a [map] onto a fresh slice. *)
Lemma convert_loop (acc : list SSHKey) (l : list schema.SSHKey) :
  fold_left (fun sshKeys s => append sshKeys [SSHKeyFromSchema s]) l
            (Some acc)
  = Some (acc ++ map SSHKeyFromSchema l).
Proof.
  revert acc. induction l as [| s l IH]; intros acc; cbn [fold_left map].
  - now rewrite app_nil_r.
  - rewrite append_to_non_nil, IH, <- app_assoc. reflexivity.
Qed.

Lemma List_run (c : Client) (o : SSHKeyListOpts) (tr : Trace) :
  List c o tr =
  let tr1 := tr ++ [NewRequestCall "GET" (listPath o) None] in
  match NewRequest c "GET" (listPath o) None with
  | inr err => (None, None, Some err, tr1)
  | inl req =>
      (listResult (Do c tr1 req IntoSSHKeys),
       tr1 ++ [DoCall req IntoSSHKeys])
  end.
Proof.
  unfold List, callNewRequest, callDo, bind, emit, ret. cbn zeta.
  destruct (NewRequest c "GET" (listPath o) None) as [req | err];
    [| reflexivity].
  destruct (Do c _ req IntoSSHKeys) as [[resp [e |]] body]; cbn.
  - reflexivity.
  - unfold make. rewrite convert_loop. reflexivity.
Qed.

Lemma Get_run (c : Client) (id : int) (tr : Trace) :
  Get c id tr =
  let path := ("/ssh_keys/" ++ Itoa id)%string in
  let tr1 := tr ++ [NewRequestCall "GET" path None] in
  match NewRequest c "GET" path None with
  | inr err => (None, None, Some err, tr1)
  | inl req =>
      (match Do c tr1 req IntoSSHKey with
       | (_, Some e, _) => (None, None, Some e)
       | (resp, None, body) => (Some (SSHKeyFromSchema body), resp, None)
       end,
       tr1 ++ [DoCall req IntoSSHKey])
  end.
Proof.
  unfold Get, callNewRequest, callDo, bind, emit, ret. cbn zeta.
  destruct (NewRequest c "GET" _ None) as [req | err]; [| reflexivity].
  destruct (Do c _ req IntoSSHKey) as [[resp [e |]] body]; reflexivity.
Qed.

Lemma Delete_run (c : Client) (id : int) (tr : Trace) :
  Delete c id tr =
  let path := ("/ssh_keys/" ++ Itoa id)%string in
  let tr1 := tr ++ [NewRequestCall "DELETE" path None] in
  match NewRequest c "DELETE" path None with
  | inr err => (None, Some err, tr1)
  | inl req =>
      (fst (Do c tr1 req NoTarget), tr1 ++ [DoCall req NoTarget])
  end.
Proof.
  unfold Delete, callNewRequest, callDo, bind, emit, ret. cbn zeta.
  destruct (NewRequest c "DELETE" _ None) as [req | err]; [| reflexivity].
  destruct (Do c _ req NoTarget) as [[resp err] []]; reflexivity.
Qed.

(** ** Get *)

(** Whatever error [Do] reports, [Get] hands it on and returns neither a
    key nor the response. *)
Lemma Get_hands_on_error (c : Client) (id : int) (tr : Trace)
    (req : Request) (resp : option Response) (e : error)
    (body : schema.SSHKey) :
  let path := ("/ssh_keys/" ++ Itoa id)%string in
  NewRequest c "GET" path None = inl req ->
  Do c (tr ++ [NewRequestCall "GET" path None]) req IntoSSHKey
    = (resp, Some e, body) ->
  fst (Get c id tr) = (None, None, Some e).
Proof.
  intros path Hreq Hdo. rewrite Get_run. cbn zeta.
  fold path. rewrite Hreq, Hdo. reflexivity.
Qed.

(** C1: the provider answers [GET /ssh_keys/1] with 404 and the error code
    [not_found]; [Get] returns that API error, and no response, where a nil
    key with the response and a nil error was expected. *)
Theorem Get_not_found_is_an_error :
  let c := clientOver TestEnv.newReq TestEnv.notFound in
  fst (Get c 1 []) =
    (None, None, Some (APIError ErrorCodeNotFound "not found")) /\
  DoOver TestEnv.notFound
    [NewRequestCall "GET" "/ssh_keys/1" None]
    {| Method := "GET"; URL := "http://127.0.0.1:8080/ssh_keys/1";
       Body := None; Header := [] |} IntoSSHKey
  = (Some {| StatusCode := 404; Pagination := None |},
     Some (APIError ErrorCodeNotFound "not found"), zero IntoSSHKey).
Proof. split; reflexivity. Qed.

(** ** List *)

(** C6: [List] asks [NewRequest] for a [GET] on ["/ssh_keys?"] followed by
    the encoded options, in which [page] and [per_page] carry the given
    values, and sends the request it gets. *)
Theorem List_request (c : Client) (o : SSHKeyListOpts) (tr : Trace) :
  let path :=
    ("/ssh_keys?" ++ url.Encode (valuesForListOpts (listOpts o)))%string in
  path = ("/ssh_keys?page=" ++ Itoa (Page (listOpts o)) ++
          "&per_page=" ++ Itoa (PerPage (listOpts o)))%string /\
  snd (List c o tr) =
    tr ++ NewRequestCall "GET" path None ::
          match NewRequest c "GET" path None with
          | inl req => [DoCall req IntoSSHKeys]
          | inr _ => []
          end.
Proof.
  intros path. split; [apply listPath_eq |].
  rewrite List_run. cbn zeta. change path with (listPath o).
  destruct (NewRequest c "GET" (listPath o) None); cbn [snd].
  - rewrite <- app_assoc. reflexivity.
  - reflexivity.
Qed.

(** ** Delete *)

Lemma is2xx_spec (status : int) :
  is2xx status = true <-> 200 <= status <= 299.
Proof. unfold is2xx. rewrite andb_true_iff, !Z.leb_le. tauto. Qed.

(** C7: once the request is built, [Delete] makes one [DELETE] request on
    ["/ssh_keys/<id>"] without a body and has nothing decoded; its error is
    nil exactly when a response came back with a 2xx status. *)
Theorem Delete_request_and_outcome
    (newReq : string -> string -> option string -> Request + error)
    (provider : Provider) (id : int) (tr : Trace) (req : Request) :
  let c := clientOver newReq provider in
  let path := ("/ssh_keys/" ++ Itoa id)%string in
  let tr1 := tr ++ [NewRequestCall "DELETE" path None] in
  newReq "DELETE" path None = inl req ->
  snd (Delete c id tr) = tr1 ++ [DoCall req NoTarget] /\
  (snd (fst (Delete c id tr)) = None <->
   exists status body,
     provider tr1 req = HTTPReply status body /\ 200 <= status <= 299).
Proof.
  intros c path tr1 Hreq. rewrite Delete_run. cbn zeta.
  fold path. fold tr1. subst c. cbn [NewRequest Do clientOver].
  rewrite Hreq. cbn [snd fst]. split; [reflexivity |].
  unfold DoOver.
  destruct (provider tr1 req) as [msg | status body]; cbn.
  - split; [discriminate | intros (s & b & H & _); discriminate].
  - destruct (is2xx status) eqn:E; cbn.
    + split; [| reflexivity]. intros _. exists status, body.
      split; [reflexivity | now apply is2xx_spec].
    + split; [discriminate |].
      intros (s & b & H & Hs). injection H as <- <-.
      apply is2xx_spec in Hs. congruence.
Qed.

Lemma Delete_request_and_outcome_witness :
  Delete (clientOver TestEnv.newReq TestEnv.noContent) 7 [] =
  (Some {| StatusCode := 204; Pagination := None |}, None,
   [NewRequestCall "DELETE" "/ssh_keys/7" None;
    DoCall {| Method := "DELETE";
              URL := "http://127.0.0.1:8080/ssh_keys/7";
              Body := None; Header := [] |} NoTarget]).
Proof.
  pose proof (Delete_request_and_outcome TestEnv.newReq TestEnv.noContent
                7 [] _ eq_refl) as [Htrace [_ Hok]].
  destruct (Delete _ 7 []) as [[resp err] tr'] eqn:E.
  cbn [fst snd] in Htrace, Hok.
  rewrite Htrace, Hok.
  - injection E as <- _ _. reflexivity.
  - exists 204, None. split; [reflexivity | lia].
Defined.

(** ** All *)

Lemma fetchPage_run (c : Client) (p : int) (vars : AllVars) (tr : Trace) :
  PerPage (listOpts (opts vars)) = 50 ->
  fetchPage c p vars tr =
  let '(sshKeys, resp, err, tr') := List c (pageOpts p) tr in
  (resp, err,
   {| allSSHKeys := match err with
                    | Some _ => allSSHKeys vars
                    | None => append (allSSHKeys vars) (elems sshKeys)
                    end;
      opts := pageOpts p |}, tr').
Proof.
  intros H. unfold fetchPage, bind, ret. rewrite H. fold (pageOpts p).
  destruct (List c (pageOpts p) tr) as [[[sshKeys resp] [e |]] tr'];
    reflexivity.
Qed.

Lemma List_events (c : Client) (p : int) (tr : Trace) :
  exists evs,
    snd (List c (pageOpts p) tr) = tr ++ evs /\
    Forall (fetchEvent c 50) evs.
Proof.
  rewrite List_run. cbn zeta.
  destruct (NewRequest c "GET" (listPath (pageOpts p)) None)
    as [req | err] eqn:E; cbn [snd].
  - exists [NewRequestCall "GET" (listPath (pageOpts p)) None;
            DoCall req IntoSSHKeys].
    split; [now rewrite <- app_assoc |].
    repeat constructor; exists p; cbn zeta; [now left | right].
    exists req. now split.
  - exists [NewRequestCall "GET" (listPath (pageOpts p)) None].
    split; [reflexivity |].
    repeat constructor. exists p. now left.
Qed.

Lemma append_not_nil {A} (s : slice A) (xs : list A) :
  s <> None -> append s xs <> None.
Proof. destruct s; [discriminate | contradiction]. Qed.

(** The loop keeps the page size and a non-nil accumulator, and only adds
    events of page fetches of size 50 to the trace. *)
Lemma all_from_invariant (c : Client) (fuel : nat) :
  forall (p : int) (vars : AllVars) (tr : Trace),
    varsOK vars ->
    exists r vars' evs,
      all_from fuel (fetchPage c) p vars tr = (r, vars', tr ++ evs) /\
      varsOK vars' /\ Forall (fetchEvent c 50) evs.
Proof.
  induction fuel as [| fuel IH]; intros p vars tr [Hsize Hnil].
  - exists OutOfFuel, vars, []. rewrite app_nil_r.
    repeat split; auto.
  - cbn [all_from]. unfold bind. rewrite fetchPage_run by assumption.
    destruct (List_events c p tr) as (evs & Htr & Hevs).
    destruct (List c (pageOpts p) tr) as [[[sshKeys resp] err] tr1].
    cbn [snd] in Htr. subst tr1.
    destruct err as [e |].
    + eexists _, _, evs. split; [reflexivity |]. repeat split; auto.
    + destruct (lastPageReached resp).
      * eexists _, _, evs. split; [reflexivity |].
        repeat split; auto. cbn. now apply append_not_nil.
      * edestruct IH as (r & vars' & evs' & Hrun & Hok & Hevs').
        2: { exists r, vars', (evs ++ evs'). rewrite Hrun, app_assoc.
             split; [reflexivity |]. split; [exact Hok |].
             apply Forall_app. now split. }
        split; [reflexivity |]. cbn. now apply append_not_nil.
Qed.

Lemma vars0_OK : varsOK vars0.
Proof. split; [reflexivity | discriminate]. Qed.

Lemma All_run (fuel : nat) (c : Client) (tr : Trace) :
  All fuel c tr =
  let '(r, vars, tr') := all_from fuel (fetchPage c) 1 vars0 tr in
  (match r with
   | OutOfFuel => OutOfFuel
   | Returned (_, Some err) => Returned (None, Some err)
   | Returned (_, None) => Returned (allSSHKeys vars, None)
   end, tr').
Proof.
  unfold All, all, bind, ret.
  destruct (all_from fuel (fetchPage c) 1 vars0 tr)
    as [[[[resp [e |]] |] vars] tr']; reflexivity.
Qed.

Lemma List_trace (c : Client) (p : int) (tr : Trace) :
  snd (List c (pageOpts p) tr) = tr ++ fetchEvents c p.
Proof.
  rewrite List_run. cbn zeta. unfold fetchEvents. cbn zeta.
  destruct (NewRequest c "GET" (listPath (pageOpts p)) None); cbn [snd].
  - now rewrite <- app_assoc.
  - reflexivity.
Qed.

(** The loop fetches consecutive pages, at least one if it runs at all,
    and does nothing else. *)
Lemma all_from_trace (c : Client) (fuel : nat) :
  forall (p : int) (vars : AllVars) (tr : Trace),
    PerPage (listOpts (opts vars)) = 50 ->
    exists n,
      (n <= fuel)%nat /\ (0 < fuel -> 0 < n)%nat /\
      snd (all_from fuel (fetchPage c) p vars tr) =
      tr ++ flat_map (fetchEvents c) (pagesFrom p n).
Proof.
  induction fuel as [| fuel IH]; intros p vars tr Hsize.
  - exists 0%nat. cbn. rewrite app_nil_r. repeat split; lia.
  - cbn [all_from]. unfold bind. rewrite fetchPage_run by assumption.
    pose proof (List_trace c p tr) as Htr.
    destruct (List c (pageOpts p) tr) as [[[sshKeys resp] err] tr1].
    cbn [snd] in Htr. subst tr1.
    assert (Hone : tr ++ fetchEvents c p =
                   tr ++ flat_map (fetchEvents c) (pagesFrom p 1)).
    { cbn. now rewrite app_nil_r. }
    destruct err as [e |].
    + exists 1%nat. repeat split; try lia. exact Hone.
    + destruct (lastPageReached resp).
      * exists 1%nat. repeat split; try lia. exact Hone.
      * edestruct IH as (n & Hle & _ & Hrun); [| rewrite Hrun].
        { reflexivity. }
        exists (S n). repeat split; try lia.
        cbn [pagesFrom flat_map]. now rewrite <- app_assoc.
Qed.

(** C5: a call of [All] that enters its loop fetches pages [1 .. n] for
    some [n >= 1], and what it does on its client is exactly these
    fetches, one after the other: each builds (and, once built, sends) the
    [GET] request of options with [PerPage = 50], whose path ends in
    [per_page=50]. *)
Theorem All_page_size_50 (fuel : nat) (c : Client) (tr : Trace) :
  (0 < fuel)%nat ->
  (exists n,
     (0 < n <= fuel)%nat /\
     snd (All fuel c tr) =
     tr ++ flat_map (fetchEvents c) (pagesFrom 1 n)) /\
  (forall p,
     listPath (mkSSHKeyListOpts {| Page := p; PerPage := 50 |}) =
     ("/ssh_keys?page=" ++ Itoa p ++ "&per_page=50")%string).
Proof.
  intros Hfuel. split.
  - destruct (all_from_trace c fuel 1 vars0 tr eq_refl)
      as (n & Hle & Hpos & Hrun).
    exists n. split; [split; [now apply Hpos | exact Hle] |].
    rewrite All_run.
    destruct (all_from fuel (fetchPage c) 1 vars0 tr)
      as [[r vars] tr'].
    exact Hrun.
  - intros p. apply (listPath_eq (pageOpts p)).
Qed.

Lemma All_page_size_50_witness :
  let c := clientOver TestEnv.newReq TestEnv.twoPages in
  nth_error (snd (All 5 c [])) 0 =
    Some (NewRequestCall "GET" "/ssh_keys?page=1&per_page=50" None) /\
  listPath (pageOpts 2) = "/ssh_keys?page=2&per_page=50".
Proof.
  intros c.
  assert (H5 : (0 < 5)%nat) by (repeat constructor).
  destruct (All_page_size_50 5 c [] H5) as [(n & [Hpos _] & Htr) Hpath].
  split.
  - rewrite Htr. destruct n as [| n]; [inversion Hpos |]. reflexivity.
  - exact (Hpath 2).
Defined.

(** C8: a successful [List] and a successful [All] return a slice that is
    not nil, also when it is empty. *)
Theorem success_slice_not_nil (c : Client) :
  (forall o tr sshKeys resp tr',
     List c o tr = (sshKeys, resp, None, tr') -> sshKeys <> None) /\
  (forall fuel tr sshKeys tr',
     All fuel c tr = (Returned (sshKeys, None), tr') -> sshKeys <> None).
Proof.
  split.
  - intros o tr sshKeys resp tr'. rewrite List_run. cbn zeta.
    destruct (NewRequest c "GET" (listPath o) None) as [req | err];
      [| discriminate].
    destruct (Do c _ req IntoSSHKeys) as [[r [e |]] body]; cbn;
      [discriminate |].
    intros [= <- _ _]. discriminate.
  - intros fuel tr sshKeys tr'. rewrite All_run.
    destruct (all_from_invariant c fuel 1 vars0 tr vars0_OK)
      as (r & vars & evs & Hrun & [_ Hnil] & _).
    rewrite Hrun.
    destruct r as [[resp [e |]] |]; try discriminate.
    now intros [= <- _].
Qed.

Lemma success_slice_not_nil_witness :
  let c := clientOver TestEnv.newReq TestEnv.noKeys in
  exists l1 l2 resp tr1 tr2,
    List c (pageOpts 1) [] = (l1, resp, None, tr1) /\
    All 3 c [] = (Returned (l2, None), tr2) /\
    elems l1 = [] /\ elems l2 = [] /\ l1 <> None /\ l2 <> None.
Proof.
  intros c. do 5 eexists.
  split; [reflexivity |]. split; [reflexivity |].
  split; [reflexivity |]. split; [reflexivity |]. split.
  - eapply (proj1 (success_slice_not_nil c) (pageOpts 1) []).
    reflexivity.
  - eapply (proj2 (success_slice_not_nil c) 3%nat []). reflexivity.
Defined.

(** Along successful pages the loop only accumulates. *)
Lemma all_from_Pages (c : Client) (p : int) (tr : Trace)
    (pages : list (list SSHKey)) (p' : int) (tr' : Trace) :
  Pages c p tr pages p' tr' ->
  forall (fuel : nat) (vars : AllVars) (acc : list SSHKey),
    PerPage (listOpts (opts vars)) = 50 ->
    allSSHKeys vars = Some acc ->
    exists vars',
      PerPage (listOpts (opts vars')) = 50 /\
      allSSHKeys vars' = Some (acc ++ List.concat pages) /\
      all_from (List.length pages + fuel) (fetchPage c) p vars tr =
      all_from fuel (fetchPage c) p' vars' tr'.
Proof.
  induction 1 as [p tr | p tr sshKeys resp tr1 rest p' tr' HList Hmore _ IH];
    intros fuel vars acc Hsize Hacc.
  - exists vars. rewrite app_nil_r. now repeat split.
  - cbn [List.length Nat.add all_from]. unfold bind.
    rewrite fetchPage_run, HList by assumption. rewrite Hmore.
    edestruct IH as (vars' & Hsize' & Hacc' & Hrun).
    3: { exists vars'. rewrite Hrun. split; [exact Hsize' |].
         split; [| reflexivity]. rewrite Hacc'. cbn [List.concat].
         now rewrite app_assoc. }
    + reflexivity.
    + cbn. rewrite Hacc. reflexivity.
Qed.

(** C2: pages [1 .. n] are listed with success, each announcing a further
    page, and the fetch of the next page fails with [e]: [All] returns the
    nil slice and [e], and stops right there, its trace being the one the
    failed fetch left. *)
Theorem All_stops_at_failed_page (fuel : nat) (c : Client) (tr : Trace)
    (pages : list (list SSHKey)) (p : int) (tr1 : Trace)
    (sshKeys : slice SSHKey) (resp : option Response) (e : error)
    (tr2 : Trace) :
  Pages c 1 tr pages p tr1 ->
  List c (pageOpts p) tr1 = (sshKeys, resp, Some e, tr2) ->
  (List.length pages < fuel)%nat ->
  All fuel c tr = (Returned (None, Some e), tr2).
Proof.
  intros Hpages Hfail Hfuel. rewrite All_run.
  destruct (all_from_Pages c 1 tr pages p tr1 Hpages
              (fuel - List.length pages) vars0 [] eq_refl eq_refl)
    as (vars & Hsize & _ & Hrun).
  replace (List.length pages + (fuel - List.length pages))%nat with fuel in Hrun
    by lia.
  rewrite Hrun.
  destruct (fuel - List.length pages)%nat as [| k] eqn:E; [lia |].
  cbn [all_from]. unfold bind.
  rewrite fetchPage_run, Hfail by assumption. reflexivity.
Qed.

Lemma All_stops_at_failed_page_witness :
  let c := clientOver TestEnv.newReq TestEnv.dropsOnPage2 in
  fst (All 5 c []) =
    Returned (None, Some (TransportError "connection reset")) /\
  List.length (snd (All 5 c [])) = 4%nat.
Proof.
  intros c.
  erewrite (All_stops_at_failed_page 5 c []
              [map SSHKeyFromSchema [TestEnv.key 1; TestEnv.key 2]] 2);
    cycle 1.
  - eapply (Pages_more c 1 [] (Some _)).
    + reflexivity.
    + reflexivity.
    + apply Pages_done.
  - reflexivity.
  - cbn. lia.
  - split; reflexivity.
Defined.

(** C3: pages [1 .. n] are listed with success, each announcing a further
    page, and page [n + 1] is listed with success as the last one: [All]
    returns the results of the pages one after the other, in the order
    of the pages and within each page in the order of [List]. *)
Theorem All_concatenates_pages (fuel : nat) (c : Client) (tr : Trace)
    (pages : list (list SSHKey)) (p : int) (tr1 : Trace)
    (sshKeys : slice SSHKey) (resp : option Response) (tr2 : Trace) :
  Pages c 1 tr pages p tr1 ->
  List c (pageOpts p) tr1 = (sshKeys, resp, None, tr2) ->
  lastPageReached resp = true ->
  (List.length pages < fuel)%nat ->
  All fuel c tr =
    (Returned (Some (List.concat (pages ++ [elems sshKeys])), None), tr2).
Proof.
  intros Hpages Hlast Hstop Hfuel. rewrite All_run.
  destruct (all_from_Pages c 1 tr pages p tr1 Hpages
              (fuel - List.length pages) vars0 [] eq_refl eq_refl)
    as (vars & Hsize & Hacc & Hrun).
  replace (List.length pages + (fuel - List.length pages))%nat with fuel in Hrun
    by lia.
  rewrite Hrun.
  destruct (fuel - List.length pages)%nat as [| k] eqn:E; [lia |].
  cbn [all_from]. unfold bind.
  rewrite fetchPage_run, Hlast by assumption. rewrite Hstop.
  cbn. rewrite Hacc. cbn.
  rewrite concat_app. cbn. now rewrite app_nil_r.
Qed.

Lemma All_concatenates_pages_witness :
  let c := clientOver TestEnv.newReq TestEnv.twoPages in
  fst (All 5 c []) =
    Returned (Some (map SSHKeyFromSchema
                      [TestEnv.key 1; TestEnv.key 2; TestEnv.key 3]),
              None).
Proof.
  intros c.
  erewrite (All_concatenates_pages 5 c []
              [map SSHKeyFromSchema [TestEnv.key 1; TestEnv.key 2]] 2
              _ (Some _)); cycle 1.
  - eapply (Pages_more c 1 [] (Some _)).
    + reflexivity.
    + reflexivity.
    + apply Pages_done.
  - reflexivity.
  - reflexivity.
  - cbn. lia.
  - reflexivity.
Defined.

(** * Further properties of the methods *)

Lemma Create_run (json_Marshal : string -> string -> string + error)
    (c : Client) (o : SSHKeyCreateOpts) (tr : Trace) :
  Create json_Marshal c o tr =
  match Validate o with
  | Some err => (None, None, Some err, tr)
  | None =>
      match json_Marshal (co_Name o) (co_PublicKey o) with
      | inr err => (None, None, Some err, tr)
      | inl data =>
          let tr1 := tr ++ [NewRequestCall "POST" "/ssh_keys" (Some data)] in
          match NewRequest c "POST" "/ssh_keys" (Some data) with
          | inr err => (None, None, Some err, tr1)
          | inl req =>
              (match Do c tr1 req IntoSSHKey with
               | (resp, Some e, _) => (None, resp, Some e)
               | (resp, None, body) =>
                   (Some (SSHKeyFromSchema body), resp, None)
               end,
               tr1 ++ [DoCall req IntoSSHKey])
          end
      end
  end.
Proof.
  unfold Create, callNewRequest, callDo, bind, emit, ret.
  destruct (Validate o); [reflexivity |].
  destruct (json_Marshal _ _) as [data | err]; [| reflexivity].
  cbn zeta.
  destruct (NewRequest c "POST" "/ssh_keys" (Some data)) as [req | err];
    [| reflexivity].
  destruct (Do c _ req IntoSSHKey) as [[resp [e |]] body]; reflexivity.
Qed.

Lemma app_cons_neq {A} (l : list A) (x : A) (l' : list A) :
  l ++ x :: l' <> l.
Proof.
  intros H. rewrite <- (app_nil_r l) in H at 2.
  apply app_inv_head in H. discriminate.
Qed.

(** ** Requests *)

(** X1: [Get] asks [NewRequest] for a [GET] on ["/ssh_keys/<id>"] without a
    body, sends the request it gets to be decoded into the [ssh_key]
    struct, and does nothing else on its client. *)
Theorem Get_request (c : Client) (id : int) (tr : Trace) :
  let path := ("/ssh_keys/" ++ Itoa id)%string in
  snd (Get c id tr) =
    tr ++ NewRequestCall "GET" path None ::
          match NewRequest c "GET" path None with
          | inl req => [DoCall req IntoSSHKey]
          | inr _ => []
          end.
Proof.
  intros path. rewrite Get_run. cbn zeta. fold path.
  destruct (NewRequest c "GET" path None); cbn [snd].
  - rewrite <- app_assoc. reflexivity.
  - reflexivity.
Qed.

(** X2: with options that pass [Validate] and a request struct that
    marshals to [data], [Create] asks for a [POST] on ["/ssh_keys"] whose
    body is [data], sends the request it gets to be decoded into the
    [ssh_key] struct, and does nothing else on its client. *)
Theorem Create_request (json_Marshal : string -> string -> string + error)
    (c : Client) (o : SSHKeyCreateOpts) (tr : Trace) (data : string) :
  Validate o = None ->
  json_Marshal (co_Name o) (co_PublicKey o) = inl data ->
  snd (Create json_Marshal c o tr) =
    tr ++ NewRequestCall "POST" "/ssh_keys" (Some data) ::
          match NewRequest c "POST" "/ssh_keys" (Some data) with
          | inl req => [DoCall req IntoSSHKey]
          | inr _ => []
          end.
Proof.
  intros Hv Hm. rewrite Create_run, Hv, Hm. cbn zeta.
  destruct (NewRequest c "POST" "/ssh_keys" (Some data)); cbn [snd].
  - rewrite <- app_assoc. reflexivity.
  - reflexivity.
Qed.

Lemma Create_request_witness :
  exists data req,
    snd (Create TestEnv.marshal
           (clientOver TestEnv.newReq TestEnv.oneKey)
           (mkSSHKeyCreateOpts "laptop" "ssh-rsa AAAA") []) =
    [NewRequestCall "POST" "/ssh_keys" (Some data);
     DoCall req IntoSSHKey] /\
    Body req = Some data.
Proof.
  do 2 eexists.
  rewrite (Create_request TestEnv.marshal
             (clientOver TestEnv.newReq TestEnv.oneKey)
             (mkSSHKeyCreateOpts "laptop" "ssh-rsa AAAA") [] _
             eq_refl eq_refl).
  split; reflexivity.
Defined.

(** X3: [Create] leaves its client untouched exactly when the options do
    not pass [Validate] or the request struct does not marshal. *)
Theorem Create_touches_client_iff
    (json_Marshal : string -> string -> string + error)
    (c : Client) (o : SSHKeyCreateOpts) (tr : Trace) :
  snd (Create json_Marshal c o tr) = tr <->
  Validate o <> None \/
  exists err, json_Marshal (co_Name o) (co_PublicKey o) = inr err.
Proof.
  rewrite Create_run.
  destruct (Validate o) as [err |].
  - split; [left; discriminate | reflexivity].
  - destruct (json_Marshal _ _) as [data | err].
    + cbn zeta. split.
      * intros H. exfalso.
        destruct (NewRequest c "POST" "/ssh_keys" (Some data));
          cbn [snd] in H; [rewrite <- app_assoc in H |];
          exact (app_cons_neq _ _ _ H).
      * intros [H | [err H]]; [contradiction | discriminate].
    + split; [right; now exists err | reflexivity].
Qed.

(** X4: when [NewRequest] fails, [Get], [List], [Create] and [Delete]
    return its error with nothing else and do not call [Do]: after the
    attempt to build the request the client is left alone. *)
Theorem request_failure_sends_nothing
    (json_Marshal : string -> string -> string + error)
    (c : Client) (tr : Trace) (e : error) :
  (forall id,
     let path := ("/ssh_keys/" ++ Itoa id)%string in
     NewRequest c "GET" path None = inr e ->
     Get c id tr =
       (None, None, Some e, tr ++ [NewRequestCall "GET" path None])) /\
  (forall o,
     NewRequest c "GET" (listPath o) None = inr e ->
     List c o tr =
       (None, None, Some e,
        tr ++ [NewRequestCall "GET" (listPath o) None])) /\
  (forall o data,
     Validate o = None ->
     json_Marshal (co_Name o) (co_PublicKey o) = inl data ->
     NewRequest c "POST" "/ssh_keys" (Some data) = inr e ->
     Create json_Marshal c o tr =
       (None, None, Some e,
        tr ++ [NewRequestCall "POST" "/ssh_keys" (Some data)])) /\
  (forall id,
     let path := ("/ssh_keys/" ++ Itoa id)%string in
     NewRequest c "DELETE" path None = inr e ->
     Delete c id tr =
       (None, Some e, tr ++ [NewRequestCall "DELETE" path None])).
Proof.
  repeat split.
  - intros id path H. rewrite Get_run. cbn zeta. fold path. now rewrite H.
  - intros o H. rewrite List_run. cbn zeta. now rewrite H.
  - intros o data Hv Hm H. rewrite Create_run, Hv, Hm. cbn zeta.
    now rewrite H.
  - intros id path H. rewrite Delete_run. cbn zeta. fold path.
    now rewrite H.
Qed.

Lemma request_failure_sends_nothing_witness :
  let c := clientOver TestEnv.badEndpoint TestEnv.oneKey in
  let e := errors_New "invalid URL" in
  Get c 5 [] = (None, None, Some e,
                [NewRequestCall "GET" "/ssh_keys/5" None]) /\
  Delete c 5 [] = (None, Some e,
                   [NewRequestCall "DELETE" "/ssh_keys/5" None]) /\
  fst (List c (pageOpts 1) []) = (None, None, Some e) /\
  fst (Create TestEnv.marshal c
         (mkSSHKeyCreateOpts "laptop" "ssh-rsa AAAA") []) =
    (None, None, Some e).
Proof.
  intros c e.
  destruct (request_failure_sends_nothing TestEnv.marshal c [] e)
    as (HGet & HList & HCreate & HDelete).
  split; [| split; [| split]].
  - apply (HGet 5). reflexivity.
  - apply (HDelete 5). reflexivity.
  - rewrite (HList (pageOpts 1) eq_refl). reflexivity.
  - erewrite (HCreate (mkSSHKeyCreateOpts "laptop" "ssh-rsa AAAA") _
                eq_refl eq_refl eq_refl).
    reflexivity.
Defined.

(** ** Results *)

(** X5: [Get] and [List] return either a value with a nil error, or an
    error with a nil value and a nil response: never both a value and an
    error, and on an error the response of [Do] is dropped. *)
Theorem Get_List_value_xor_error (c : Client) (tr : Trace) :
  (forall id,
     (exists sshKey resp, fst (Get c id tr) = (Some sshKey, resp, None)) \/
     (exists e, fst (Get c id tr) = (None, None, Some e))) /\
  (forall o,
     (exists sshKeys resp,
        fst (List c o tr) = (Some sshKeys, resp, None)) \/
     (exists e, fst (List c o tr) = (None, None, Some e))).
Proof.
  split.
  - intros id. rewrite Get_run. cbn zeta.
    destruct (NewRequest c "GET" _ None) as [req | err]; cbn [fst].
    + destruct (Do c _ req IntoSSHKey) as [[resp [e |]] body].
      * right. now exists e.
      * left. now exists (SSHKeyFromSchema body), resp.
    + right. now exists err.
  - intros o. rewrite List_run. cbn zeta.
    destruct (NewRequest c "GET" _ None) as [req | err]; cbn [fst].
    + destruct (Do c _ req IntoSSHKeys) as [[resp [e |]] body]; cbn.
      * right. now exists e.
      * left. now exists (map SSHKeyFromSchema (elems body)), resp.
    + right. now exists err.
Qed.

(** X6: when [Do] succeeds, [List] returns the response of [Do] and one key
    per element of the decoded [ssh_keys] array (none for a missing
    array), in the order of the array, each the conversion of its
    element. *)
Theorem List_converts_in_order (c : Client) (o : SSHKeyListOpts)
    (tr : Trace) (req : Request) (resp : option Response)
    (body : slice schema.SSHKey) :
  NewRequest c "GET" (listPath o) None = inl req ->
  Do c (tr ++ [NewRequestCall "GET" (listPath o) None]) req IntoSSHKeys
    = (resp, None, body) ->
  exists sshKeys,
    fst (List c o tr) = (Some sshKeys, resp, None) /\
    List.length sshKeys = List.length (elems body) /\
    forall i,
      nth_error sshKeys i =
      option_map SSHKeyFromSchema (nth_error (elems body) i).
Proof.
  intros Hreq Hdo. rewrite List_run. cbn zeta. rewrite Hreq, Hdo.
  exists (map SSHKeyFromSchema (elems body)).
  split; [reflexivity |]. split.
  - apply length_map.
  - intros i. apply nth_error_map.
Qed.

Lemma List_converts_in_order_witness :
  exists sshKeys resp,
    fst (List (clientOver TestEnv.newReq TestEnv.twoPages)
           (pageOpts 1) []) = (Some sshKeys, resp, None) /\
    List.length sshKeys = 2%nat /\
    nth_error sshKeys 1 = Some (SSHKeyFromSchema (TestEnv.key 2)).
Proof.
  destruct (List_converts_in_order
              (clientOver TestEnv.newReq TestEnv.twoPages)
              (pageOpts 1) [] _ _ _ eq_refl eq_refl)
    as (sshKeys & Hres & Hlen & Hnth).
  exists sshKeys. eexists.
  split; [exact Hres |]. split; [exact Hlen | exact (Hnth 1%nat)].
Defined.

(** X7: once the request is sent, [Create] hands back the response of [Do]
    as it is, with the error of [Do], and a key exactly when that error is
    nil: unlike [Get], it keeps the response of a failed call. *)
Theorem Create_hands_back_response
    (json_Marshal : string -> string -> string + error)
    (c : Client) (o : SSHKeyCreateOpts) (tr : Trace) (data : string)
    (req : Request) (resp : option Response) (err : option error)
    (body : schema.SSHKey) :
  Validate o = None ->
  json_Marshal (co_Name o) (co_PublicKey o) = inl data ->
  NewRequest c "POST" "/ssh_keys" (Some data) = inl req ->
  Do c (tr ++ [NewRequestCall "POST" "/ssh_keys" (Some data)]) req
     IntoSSHKey = (resp, err, body) ->
  fst (Create json_Marshal c o tr) =
    (match err with
     | Some _ => None
     | None => Some (SSHKeyFromSchema body)
     end, resp, err).
Proof.
  intros Hv Hm Hreq Hdo. rewrite Create_run, Hv, Hm. cbn zeta.
  rewrite Hreq, Hdo. now destruct err.
Qed.

Lemma Create_hands_back_response_witness :
  fst (Create TestEnv.marshal (clientOver TestEnv.newReq TestEnv.taken)
         (mkSSHKeyCreateOpts "laptop" "ssh-rsa AAAA") []) =
  (None, Some {| StatusCode := 422; Pagination := None |},
   Some (APIError "uniqueness_error" "name taken")).
Proof.
  erewrite (Create_hands_back_response TestEnv.marshal
              (clientOver TestEnv.newReq TestEnv.taken)
              (mkSSHKeyCreateOpts "laptop" "ssh-rsa AAAA") [] _ _ _ _ _
              eq_refl eq_refl eq_refl eq_refl).
  reflexivity.
Defined.

(** X8: whatever the client, the provider and the number of iterations,
    a call of [All] that returns gives either a slice that is not nil with
    a nil error, or the nil slice with an error. *)
Theorem All_slice_xor_error (fuel : nat) (c : Client) (tr : Trace) :
  fst (All fuel c tr) = OutOfFuel \/
  (exists sshKeys, fst (All fuel c tr) = Returned (Some sshKeys, None)) \/
  (exists e, fst (All fuel c tr) = Returned (None, Some e)).
Proof.
  rewrite All_run.
  destruct (all_from_invariant c fuel 1 vars0 tr vars0_OK)
    as (r & vars & evs & Hrun & [_ Hnil] & _).
  rewrite Hrun. cbn [fst].
  destruct r as [[resp [e |]] |].
  - right. right. now exists e.
  - right. left. destruct (allSSHKeys vars) as [l |]; [| contradiction].
    now exists l.
  - now left.
Qed.

(** ** Paths *)

Lemma to_uint_not_Nil (p : positive) : Pos.to_uint p <> Decimal.Nil.
Proof.
  intros H. pose proof (DecimalPos.Unsigned.to_uint_nonnil p) as Hn.
  contradiction.
Qed.

(** Reading back the decimal form gives the number. *)
Lemma Itoa_read_back (x : int) :
  option_map Z.of_int (NilZero.int_of_string (Itoa x)) = Some x.
Proof.
  unfold Itoa. rewrite NilZero.isi.
  - cbn [option_map]. now rewrite DecimalZ.of_to.
  - destruct x; cbn; try discriminate.
    intros [= H]. exact (to_uint_not_Nil _ H).
  - destruct x; cbn; try discriminate.
    intros [= H]. exact (to_uint_not_Nil _ H).
Qed.

Lemma Itoa_injective (x y : int) : Itoa x = Itoa y -> x = y.
Proof.
  intros H. pose proof (Itoa_read_back x) as Hx.
  rewrite H, Itoa_read_back in Hx. now injection Hx.
Qed.

(** X9: the path that [Get] and [Delete] address determines the id: two
    ids with the same path are the same id. *)
Theorem key_path_injective (c : Client) (id id' : int) (tr : Trace) :
  nth_error (snd (Get c id tr)) (List.length tr) =
  nth_error (snd (Get c id' tr)) (List.length tr) \/
  nth_error (snd (Delete c id tr)) (List.length tr) =
  nth_error (snd (Delete c id' tr)) (List.length tr) ->
  id = id'.
Proof.
  assert (Hnth : forall (ev : Event) l,
            nth_error (tr ++ ev :: l) (List.length tr) = Some ev).
  { intros ev l. rewrite nth_error_app2 by lia.
    now rewrite Nat.sub_diag. }
  intros [H | H].
  - rewrite !Get_run in H. cbn zeta in H.
    destruct (NewRequest c "GET" _ None), (NewRequest c "GET" _ None);
      cbn [snd] in H; rewrite <- ?app_assoc in H; cbn [app] in H;
      rewrite !Hnth in H; injection H as H; now apply Itoa_injective.
  - rewrite !Delete_run in H. cbn zeta in H.
    destruct (NewRequest c "DELETE" _ None), (NewRequest c "DELETE" _ None);
      cbn [snd] in H; rewrite <- ?app_assoc in H; cbn [app] in H;
      rewrite !Hnth in H; injection H as H; now apply Itoa_injective.
Qed.

Lemma key_path_injective_witness : 7 = 7.
Proof.
  apply (key_path_injective
           (clientOver TestEnv.newReq TestEnv.oneKey) 7 7 []).
  left. reflexivity.
Defined.
